(** * WebSocket factory of the Hyperliquid SDK transport layer

    A shallow embedding of [src/transports/websocket/_websocket_factory.ts]
    and the properties its specification states.

    The file has two halves that share nothing but the completion type:

    - the environment probe [getWebSocketEnvironmentInfo], over the
      plain-data fragment of JavaScript values it inspects
      ([globalThis.process.versions.node]) and the built-ins it calls
      ([typeof], [&&], [?.], [!!], [String.prototype.split], [parseInt]),
      which module [Js] gives;
    - the constructor wrapper, in section [Factory].  The [ws] library is
      external, so its constructor, the handles it returns and the values it
      throws are section variables; the error class and the two factory
      functions are written over them.

    Strings are sequences of code units below 256. *)

From Stdlib Require Import ZArith String Ascii List Bool Lia.
From stdpp Require Import gmap strings.
Import ListNotations.

Local Open Scope string_scope.
Local Open Scope Z_scope.

(** ** Completions

    A JavaScript evaluation either completes normally with a value or
    abruptly with a thrown one.  The type of thrown values is a parameter:
    the probe can only raise engine errors, the factory only its own error
    objects. *)

Inductive Completion (E A : Type) : Type :=
| Normal (a : A)
| Throw (e : E).
Arguments Normal {E A} a.
Arguments Throw {E A} e.

#[global] Instance completion_ret {E} : MRet (Completion E) :=
  fun A a => Normal a.

(** Sequencing: an abrupt completion skips the rest, which gives stdpp's
    [x ← c; k] the meaning of two statements in a row. *)
#[global] Instance completion_bind {E} : MBind (Completion E) :=
  fun A B k c =>
    match c with
    | Normal a => k a
    | Throw e => Throw e
    end.

(** Code that also acts on the world outside threads a state of type [W]
    through its completions. *)
Definition Eff (W E A : Type) : Type := W -> Completion E A * W.

Definition throw {W E A} (e : E) : Eff W E A := fun w => (Throw e, w).

(** [try { body } catch (error) { handler }]: the handler receives the thrown
    value, runs in the state the body left, and may throw in its turn. *)
Definition try_catch {W E E' A} (body : Eff W E A) (handler : E -> Eff W E' A)
  : Eff W E' A :=
  fun w =>
    match body w with
    | (Normal a, w') => (Normal a, w')
    | (Throw e, w') => handler e w'
    end.

(** Promises, by the state they settle in.  Delivery of the settlement to
    reactions (a later microtask) is not modelled. *)
Inductive Promise (E A : Type) : Type :=
| Fulfilled (value : A)
| Rejected (reason : E).
Arguments Fulfilled {E A} value.
Arguments Rejected {E A} reason.

(** An [async] function whose body has no [await]: the body runs to its end
    during the call; what it returns fulfils the promise (the value returned
    here, a socket, has no [then] method to be followed instead), what it
    throws rejects it, and the call itself cannot throw. *)
Definition async {W E A} (body : Eff W E A) : Eff W Empty_set (Promise E A) :=
  fun w =>
    match body w with
    | (Normal a, w') => (Normal (Fulfilled a), w')
    | (Throw e, w') => (Normal (Rejected e), w')
    end.

(** ** The data fragment of JavaScript values *)

Module Js.

(** Numbers.  [parseInt] only ever produces NaN, an infinity, negative zero
    or an integer-valued double, so these are the numbers modelled; [Int 0]
    is positive zero. *)
Inductive Number : Type :=
| NaN
| Infinity (negative : bool)
| NegZero
| Int (z : Z).

(** Values: the primitives and plain objects whose properties are data.
    Functions, accessors, symbols and proxies are outside the fragment. *)
#[warnings="-register-all"]
Inductive Value : Type :=
| VUndefined
| VNull
| VBool (b : bool)
| VNumber (n : Number)
| VString (s : string)
| VObject (props : list (string * Value)).

(** The only error the engine raises on this fragment. *)
Inductive EngineError : Type := TypeError.

Fixpoint own_property (props : list (string * Value)) (key : string)
  : option Value :=
  match props with
  | [] => None
  | (k, v) :: rest => if String.eqb k key then Some v else own_property rest key
  end.

(** Reading a property of an object that lacks it gives [undefined]. *)
Definition property (props : list (string * Value)) (key : string) : Value :=
  match own_property props key with
  | Some v => v
  | None => VUndefined
  end.

(** [o.key].  Reading through [undefined] or [null] is a TypeError.  On the
    other primitives the lookup goes to the wrapper prototype, which has no
    data property of the names read here ([versions], [node]). *)
Definition member (o : Value) (key : string) : Completion EngineError Value :=
  match o with
  | VUndefined | VNull => Throw TypeError
  | VObject props => Normal (property props key)
  | VBool _ | VNumber _ | VString _ => Normal VUndefined
  end.

(** [o?.key]. *)
Definition optional_member (o : Value) (key : string)
  : Completion EngineError Value :=
  match o with
  | VUndefined | VNull => Normal VUndefined
  | _ => member o key
  end.

Definition typeof (v : Value) : string :=
  match v with
  | VUndefined => "undefined"
  | VNull => "object"
  | VBool _ => "boolean"
  | VNumber _ => "number"
  | VString _ => "string"
  | VObject _ => "object"
  end.

Definition ToBoolean (v : Value) : bool :=
  match v with
  | VUndefined | VNull => false
  | VBool b => b
  | VNumber NaN | VNumber NegZero => false
  | VNumber (Int z) => negb (z =? 0)
  | VNumber (Infinity _) => true
  | VString s => negb (String.eqb s "")
  | VObject _ => true
  end.

(** [a && b]: [b] is evaluated only when [a] is truthy, otherwise the value
    of [a] itself is the result. *)
Definition logical_and (a : Value) (b : Completion EngineError Value)
  : Completion EngineError Value :=
  if ToBoolean a then b else Normal a.

(** *** String.prototype.split with a one-character separator *)

Fixpoint split_on (sep : ascii) (s : string) : list string :=
  match s with
  | EmptyString => [EmptyString]
  | String c rest =>
      if Ascii.eqb c sep then EmptyString :: split_on sep rest
      else match split_on sep rest with
           | [] => [String c EmptyString]
           | part :: parts => String c part :: parts
           end
  end.

(** [v.split(sep)]: only strings have the method; on every other value of
    the fragment the callee is [undefined] (or the receiver is nullish) and
    the call is a TypeError. *)
Definition call_split (v : Value) (sep : ascii)
  : Completion EngineError (list string) :=
  match v with
  | VString s => Normal (split_on sep s)
  | _ => Throw TypeError
  end.

(** [parts[0]], already converted to the string [parseInt] will read: an
    absent element is [undefined], whose string form is "undefined". *)
Definition element0 (parts : list string) : string :=
  match parts with
  | part :: _ => part
  | [] => "undefined"
  end.

(** *** parseInt (ECMAScript 19.2.5) *)

Definition code (c : ascii) : Z := Z.of_N (N_of_ascii c).

(** White space and line terminators among the code units below 256. *)
Definition is_white_space (c : ascii) : bool :=
  let n := code c in
  (n =? 9) || (n =? 10) || (n =? 11) || (n =? 12) || (n =? 13)
  || (n =? 32) || (n =? 160).

Fixpoint trim_start (s : string) : string :=
  match s with
  | String c rest => if is_white_space c then trim_start rest else s
  | EmptyString => EmptyString
  end.

(** Value of a digit in radix [R]: [0-9], then letters of either case. *)
Definition digit_value (R : Z) (c : ascii) : option Z :=
  let n := code c in
  let d := if (48 <=? n) && (n <=? 57) then n - 48
           else if (97 <=? n) && (n <=? 122) then n - 87
           else if (65 <=? n) && (n <=? 90) then n - 55
           else 36 in
  if d <? R then Some d else None.

(** The longest prefix of radix-[R] digits, as digit values. *)
Fixpoint digit_prefix (R : Z) (s : string) : list Z :=
  match s with
  | String c rest =>
      match digit_value R c with
      | Some d => d :: digit_prefix R rest
      | None => []
      end
  | EmptyString => []
  end.

Definition math_int (R : Z) (digits : list Z) : Z :=
  fold_left (fun acc d => R * acc + d) digits 0.

(** Nearest double of a positive integer, ties to even. *)
Definition round_to_double (m : Z) : Z :=
  if m <? 2 ^ 53 then m
  else
    let e := Z.log2 m - 52 in
    let q := m / 2 ^ e in
    let r := m mod 2 ^ e in
    let half := 2 ^ (e - 1) in
    let q' := if r <? half then q
              else if half <? r then q + 1
              else if Z.even q then q else q + 1 in
    q' * 2 ^ e.

(** The Number for [sign * m], [m] a positive integer. *)
Definition number_of_integer (sign m : Z) : Number :=
  let v := round_to_double m in
  if 2 ^ 1024 <=? v then Infinity (sign <? 0) else Int (sign * v).

Definition strip_sign (s : string) : string :=
  match s with
  | String c rest => if Ascii.eqb c "+" || Ascii.eqb c "-" then rest else s
  | EmptyString => s
  end.

(** The rest of [s] after a leading "0x" or "0X", if it has one. *)
Definition hex_prefix (s : string) : option string :=
  match s with
  | String c0 (String c1 rest) =>
      if Ascii.eqb c0 "0" && (Ascii.eqb c1 "x" || Ascii.eqb c1 "X")
      then Some rest else None
  | _ => None
  end.

Definition parseInt (input : string) (radix : Z) : Number :=
  let trimmed := trim_start input in
  let sign := match trimmed with
              | String c _ => if Ascii.eqb c "-" then -1 else 1
              | EmptyString => 1
              end in
  let body := strip_sign trimmed in
  if negb (radix =? 0) && ((radix <? 2) || (36 <? radix)) then NaN
  else
    let stripPrefix := (radix =? 0) || (radix =? 16) in
    let R := if radix =? 0 then 10 else radix in
    let '(R, body) := match (if stripPrefix then hex_prefix body else None) with
                      | Some rest => (16, rest)
                      | None => (R, body)
                      end in
    match digit_prefix R body with
    | [] => NaN
    | digits =>
        let m := math_int R digits in
        if m =? 0 then (if sign =? -1 then NegZero else Int 0)
        else number_of_integer sign m
    end.

End Js.


(** ** The exported helpers *)

Import Js.

(** [requiresWsPackage()]: no parameter, returns [false].  It is written in
    state-passing style over any world so that its independence of the
    environment can be stated. *)
Definition requiresWsPackage {W : Type} (world : W) : bool * W :=
  (false, world).

Module EnvironmentInfo.
Record t : Type := make {
  isNode : Value;
  nodeMajorVersion : Value;
  hasReliableNativeWebSocket : Value;
  requiresWsPackage : Value
}.
End EnvironmentInfo.

(** [getWebSocketEnvironmentInfo()].  Its one input is the global object,
    passed here as the list of its properties. *)
Definition getWebSocketEnvironmentInfo (globalThis : list (string * Value))
  : Completion EngineError EnvironmentInfo.t :=
  let globalProcess := property globalThis "process" in
  isNode ←
    logical_and (VBool (negb (String.eqb (typeof globalProcess) "undefined")))
                (versions ← member globalProcess "versions";
                 optional_member versions "node");
  nodeMajorVersion ←
    (if ToBoolean isNode
     then versions ← member globalProcess "versions";
          node ← member versions "node";
          parts ← call_split node ".";
          mret (VNumber (parseInt (element0 parts) 10))
     else mret VNull);
  mret {| EnvironmentInfo.isNode := VBool (negb (negb (ToBoolean isNode)));
          EnvironmentInfo.nodeMajorVersion := nodeMajorVersion;
          EnvironmentInfo.hasReliableNativeWebSocket := VBool true;
          EnvironmentInfo.requiresWsPackage := VBool false |}.

(** ** Vocabulary of the specification for the probe *)

(** The record returned, by its two computed fields; the other two are the
    constants of the source. *)
Definition info (isNode nodeMajorVersion : Value) : EnvironmentInfo.t :=
  {| EnvironmentInfo.isNode := isNode;
     EnvironmentInfo.nodeMajorVersion := nodeMajorVersion;
     EnvironmentInfo.hasReliableNativeWebSocket := VBool true;
     EnvironmentInfo.requiresWsPackage := VBool false |}.

(** What a process value that is not [null] reports as its version: the
    value at [versions.node], [undefined] when a step on the way is missing. *)
Definition reported_version (process : Value) : Value :=
  match process with
  | VObject p =>
      match property p "versions" with
      | VObject v => property v "node"
      | _ => VUndefined
      end
  | _ => VUndefined
  end.

(** The leading component of a version string: what stands before the first
    full stop. *)
Fixpoint major_component (s : string) : string :=
  match s with
  | String c rest =>
      if Ascii.eqb c "." then EmptyString else String c (major_component rest)
  | EmptyString => EmptyString
  end.

(** The outcome of the probe by the version reported: a truthy version must
    be a string, of which the leading component is parsed. *)
Definition describe (version : Value)
  : Completion EngineError EnvironmentInfo.t :=
  if ToBoolean version then
    match version with
    | VString s =>
        Normal (info (VBool true) (VNumber (parseInt (major_component s) 10)))
    | _ => Throw TypeError
    end
  else Normal (info (VBool false) VNull).

Definition decimal_digit (c : ascii) : option Z :=
  let n := code c in
  if (48 <=? n) && (n <=? 57) then Some (n - 48) else None.

(** The number written by the longest prefix of decimal digits of [s], read
    on from [acc]. *)
Fixpoint decimal_prefix (acc : Z) (s : string) : Z :=
  match s with
  | String c rest =>
      match decimal_digit c with
      | Some d => decimal_prefix (10 * acc + d) rest
      | None => acc
      end
  | EmptyString => acc
  end.

(** The leading base-10 integer of a version string: the number its leading
    component starts with, if it starts with a digit. *)
Definition leading_integer (version : string) : option Z :=
  match major_component version with
  | String c _ as component =>
      match decimal_digit c with
      | Some _ => Some (decimal_prefix 0 component)
      | None => None
      end
  | EmptyString => None
  end.

(** The Number for a natural number [n]: [n] itself up to 2^53, the nearest
    double beyond. *)
Definition Number_of (n : Z) : Number :=
  if n =? 0 then Int 0 else number_of_integer 1 n.

(** A leading component is malformed when no integer can be read off its
    front: after white space and one sign it does not start with a digit. *)
Definition starts_with_integer (component : string) : bool :=
  match strip_sign (trim_start component) with
  | String c _ =>
      match decimal_digit c with Some _ => true | None => false end
  | EmptyString => false
  end.

(** The probe is safe on a global object whose process is not [null] and
    reports a version that is falsy or a string. *)
Definition probe_safe (globalThis : list (string * Value)) : Prop :=
  property globalThis "process" <> VNull /\
  (ToBoolean (reported_version (property globalThis "process")) = true ->
   exists s, reported_version (property globalThis "process") = VString s).

(** No version is reported: the process global, if there is one, is not
    [null], and what it reports as its version is falsy. *)
Definition reports_no_version (globalThis : list (string * Value)) : Prop :=
  property globalThis "process" <> VNull /\
  ToBoolean (reported_version (property globalThis "process")) = false.

(** A global object whose process reports [version]. *)
Definition host_global (version : Value) : list (string * Value) :=
  [("process", VObject [("versions", VObject [("node", version)])])].

(** ** The factory *)

(** [url: string | URL]; a URL object is known by its serialisation. *)
Inductive UrlArg : Type :=
| UrlString (s : string)
| UrlObject (href : string).

(** [protocols?: string | string[]]; the optional argument is an [option]. *)
Inductive Protocols : Type :=
| Protocol (name : string)
| ProtocolList (names : list string).

Inductive ErrorClass : Type :=
| ClassError
| ClassTransportError
| ClassWebSocketCompatibilityError.

#[global] Instance ErrorClass_eq_dec : EqDecision ErrorClass.
Proof. solve_decision. Defined.

(** A small library to run the factory on: handles are connection numbers,
    the state counts the sockets opened, and a URL is rejected with an error
    text unless it names the [ws:] or [wss:] scheme. *)
Definition sample_scheme_ok (url : UrlArg) : bool :=
  let text := match url with UrlString s => s | UrlObject href => href end in
  String.prefix "ws://" text || String.prefix "wss://" text.

Definition sample_WebSocket_new (url : UrlArg) (protocols : option Protocols)
    (opened : nat) : Completion string nat * nat :=
  if sample_scheme_ok url then (Normal opened, S opened)
  else (Throw "SyntaxError: Invalid URL", opened).

(** What a completion settles a promise to. *)
Definition settle {E A} (c : Completion E A) : Promise E A :=
  match c with
  | Normal a => Fulfilled a
  | Throw e => Rejected e
  end.

Section Factory.

(** What the module takes from outside: the WebSocket instances of the [ws]
    package, the values its constructor may throw, and the state of the
    library and the network behind it. *)
Variable Handle : Type.
Variable Unknown : Type.
Variable Net : Type.

(** The conversion a template literal applies to an interpolated value.  It
    is total on [Unknown]: the library throws Error instances, which convert
    to "name: message"; a thrown symbol, on which the conversion itself
    throws, is not among the values considered. *)
Variable ToString : Unknown -> string.

(** [new WebSocket(url, protocols)] of the [ws] package: returns a handle or
    throws, and may act on the network. *)
Variable WebSocket_new :
  UrlArg -> option Protocols -> Net -> Completion Unknown Handle * Net.

(** The world the factory acts on: the library state and, as a record of
    what was asked of it, the constructor calls made so far. *)
Record World : Type := {
  net : Net;
  constructions : list (UrlArg * option Protocols)
}.

Definition new_WebSocket (url : UrlArg) (protocols : option Protocols)
  : Eff World Unknown Handle :=
  fun w =>
    let (result, net') := WebSocket_new url protocols (net w) in
    (result, {| net := net';
                constructions := constructions w ++ [(url, protocols)] |}).

(** *** Error objects *)

Inductive PropertyValue : Type :=
| PString (s : string)
| PUnknown (v : Unknown).

(** An error object: the class it was constructed from, which fixes its
    prototype chain, and its own properties. *)
Record ErrorObject : Type := {
  class : ErrorClass;
  own : gmap string PropertyValue
}.

(** [this.key = v]. *)
Definition assign (this : ErrorObject) (key : string) (v : PropertyValue)
  : ErrorObject :=
  {| class := class this; own := <[key := v]> (own this) |}.

(** [ErrorOptions]: an object that may have a [cause] property. *)
Record ErrorOptions : Type := { cause : option Unknown }.

(** The stack trace the engine records on a new instance.  V8, the engine
    of Node.js, keeps it on the instance as the own property [stack]; its
    text depends on the call site, which plays no part here. *)
Variable stack_trace : string.

(** The built-in [Error(message, options)] initialising an instance of
    [cls]: the engine records the stack trace, [message] becomes an own
    property unless it is [undefined], and so does [cause] when [options]
    has the property. *)
Definition Error_init (cls : ErrorClass) (message : option string)
    (options : option ErrorOptions) : ErrorObject :=
  let this := {| class := cls; own := ∅ |} in
  let this := assign this "stack" (PString stack_trace) in
  let this := match message with
              | Some msg => assign this "message" (PString msg)
              | None => this
              end in
  match options with
  | Some {| cause := Some c |} => assign this "cause" (PUnknown c)
  | _ => this
  end.

(** The name the base class gives its instances, if it assigns one. *)
Variable base_name : option string.

(** Modelled from the spec: the constructor of [TransportError], declared in
    [../base.ts], which is not among the sources.  The specification gives
    it as a base error type with the fields message and options (including
    a cause reference), so it initialises the instance as [Error] does;
    whether it then assigns a [name] of its own is left open by
    [base_name]. *)
Definition TransportError_init (cls : ErrorClass) (message : option string)
    (options : option ErrorOptions) : ErrorObject :=
  let this := Error_init cls message options in
  match base_name with
  | Some n => assign this "name" (PString n)
  | None => this
  end.

(** [new WebSocketCompatibilityError(message, options)]. *)
Definition WebSocketCompatibilityError (message : option string)
    (options : option ErrorOptions) : ErrorObject :=
  let this :=
    TransportError_init ClassWebSocketCompatibilityError message options in
  assign this "name" (PString "WebSocketCompatibilityError").

(** The [extends] clauses; that of [TransportError] is again as the
    specification describes the base type. *)
Definition extends (c : ErrorClass) : option ErrorClass :=
  match c with
  | ClassWebSocketCompatibilityError => Some ClassTransportError
  | ClassTransportError => Some ClassError
  | ClassError => None
  end.

Fixpoint prototype_chain (depth : nat) (c : ErrorClass) : list ErrorClass :=
  c :: match depth with
       | O => []
       | S depth' =>
           match extends c with
           | Some parent => prototype_chain depth' parent
           | None => []
           end
       end.

(** [o instanceof C]; no chain is longer than the three classes. *)
Definition instanceof (o : ErrorObject) (C : ErrorClass) : bool :=
  bool_decide (C ∈ prototype_chain 3 (class o)).

(** *** The two factory functions *)

Definition createCompatibleWebSocketSync (url : UrlArg)
    (protocols : option Protocols) : Eff World ErrorObject Handle :=
  try_catch
    (new_WebSocket url protocols)
    (fun error =>
       throw (WebSocketCompatibilityError
                (Some ("Failed to create WebSocket: " +:+ ToString error))
                (Some {| cause := Some error |}))).

Definition createCompatibleWebSocket (url : UrlArg)
    (protocols : option Protocols)
  : Eff World Empty_set (Promise ErrorObject Handle) :=
  async (createCompatibleWebSocketSync url protocols).

(** What the catch clause throws for a caught [error]. *)
Definition wrapped (error : Unknown) : ErrorObject :=
  WebSocketCompatibilityError
    (Some ("Failed to create WebSocket: " +:+ ToString error))
    (Some {| cause := Some error |}).

(** ** Properties of the factory *)

Lemma WebSocketCompatibilityError_name message options :
  own (WebSocketCompatibilityError message options) !! "name"
  = Some (PString "WebSocketCompatibilityError").
Proof using Type.
  unfold WebSocketCompatibilityError, assign. cbn. apply lookup_insert_eq.
Qed.

Lemma WebSocketCompatibilityError_message message options :
  own (WebSocketCompatibilityError message options) !! "message"
  = PString <$> message.
Proof using Type.
  unfold WebSocketCompatibilityError, TransportError_init, Error_init, assign.
  destruct message, options as [[[c|]]|], base_name; cbn;
    by simplify_map_eq.
Qed.

Lemma WebSocketCompatibilityError_cause message options :
  own (WebSocketCompatibilityError message options) !! "cause"
  = PUnknown <$> (options ≫= cause).
Proof using Type.
  unfold WebSocketCompatibilityError, TransportError_init, Error_init, assign.
  destruct message, options as [[[c|]]|], base_name; cbn;
    by simplify_map_eq.
Qed.

Lemma WebSocketCompatibilityError_stack message options :
  own (WebSocketCompatibilityError message options) !! "stack"
  = Some (PString stack_trace).
Proof using Type.
  unfold WebSocketCompatibilityError, TransportError_init, Error_init, assign.
  destruct message, options as [[[c|]]|], base_name; cbn;
    by simplify_map_eq.
Qed.

Lemma WebSocketCompatibilityError_keys message options :
  dom (own (WebSocketCompatibilityError message options))
  ⊆ {[ "stack"; "message"; "cause"; "name" ]}.
Proof using Type.
  unfold WebSocketCompatibilityError, TransportError_init, Error_init, assign.
  destruct message, options as [[[c|]]|], base_name; cbn;
    rewrite ?dom_insert_L, dom_empty_L; clear; set_unfold; tauto.
Qed.

Lemma WebSocketCompatibilityError_class message options :
  class (WebSocketCompatibilityError message options)
  = ClassWebSocketCompatibilityError.
Proof using Type.
  unfold WebSocketCompatibilityError, TransportError_init, Error_init, assign.
  destruct message, options as [[[c|]]|], base_name; reflexivity.
Qed.

Lemma WebSocketCompatibilityError_instanceof message options C :
  instanceof (WebSocketCompatibilityError message options) C
  = bool_decide (C ∈ [ClassWebSocketCompatibilityError; ClassTransportError;
                      ClassError]).
Proof using Type.
  unfold instanceof. rewrite WebSocketCompatibilityError_class. reflexivity.
Qed.

Lemma createCompatibleWebSocketSync_run url protocols w :
  createCompatibleWebSocketSync url protocols w =
  let (result, net') := WebSocket_new url protocols (net w) in
  (match result with
   | Normal handle => Normal handle
   | Throw error => Throw (wrapped error)
   end,
   {| net := net';
      constructions := constructions w ++ [(url, protocols)] |}).
Proof.
  unfold createCompatibleWebSocketSync, try_catch, new_WebSocket, throw.
  destruct (WebSocket_new url protocols (net w)) as [[handle|error] net'];
    reflexivity.
Qed.

(** One call of the factory is one call of the constructor, on the arguments
    as given, whether it returns or throws. *)
Lemma createCompatibleWebSocketSync_one_construction url protocols w :
  constructions (createCompatibleWebSocketSync url protocols w).2
  = (constructions w ++ [(url, protocols)])%list.
Proof.
  rewrite createCompatibleWebSocketSync_run.
  destruct (WebSocket_new url protocols (net w)). reflexivity.
Qed.

(** C1.  When the constructor of the library throws a value [e],
    [createCompatibleWebSocketSync] throws a WebSocketCompatibilityError
    whose message is "Failed to create WebSocket: " followed by the string
    form of [e] and whose cause is [e] itself; and whatever the function
    throws arises in this way, from a throw of the constructor. *)
Theorem createCompatibleWebSocketSync_wraps_failure url protocols w :
  (forall e net',
      WebSocket_new url protocols (net w) = (Throw e, net') ->
      exists err w',
        createCompatibleWebSocketSync url protocols w = (Throw err, w')
        /\ class err = ClassWebSocketCompatibilityError
        /\ own err !! "name" = Some (PString "WebSocketCompatibilityError")
        /\ own err !! "message"
           = Some (PString ("Failed to create WebSocket: " +:+ ToString e))
        /\ own err !! "cause" = Some (PUnknown e))
  /\ (forall err w',
        createCompatibleWebSocketSync url protocols w = (Throw err, w') ->
        exists e net',
          WebSocket_new url protocols (net w) = (Throw e, net')
          /\ err = WebSocketCompatibilityError
                     (Some ("Failed to create WebSocket: " +:+ ToString e))
                     (Some {| cause := Some e |})).
Proof.
  rewrite createCompatibleWebSocketSync_run. split.
  - intros e net' ->. eexists _, _. split; [reflexivity|]. unfold wrapped.
    rewrite WebSocketCompatibilityError_class,
      WebSocketCompatibilityError_name,
      WebSocketCompatibilityError_message,
      WebSocketCompatibilityError_cause.
    repeat split.
  - intros err w'.
    destruct (WebSocket_new url protocols (net w)) as [[handle|e] net'];
      intros [= <- <-]. eauto.
Qed.

(** C2.  [createCompatibleWebSocket] settles its promise as
    [createCompatibleWebSocketSync] completes, with the same effect on the
    world: fulfilled with the handle the constructor returned, or rejected
    with the error object the synchronous function throws, which is a
    WebSocketCompatibilityError with the message "Failed to create
    WebSocket: " followed by the string form of the value thrown and with
    that value as its cause; the call itself completes normally in both
    cases. *)
Theorem createCompatibleWebSocket_as_sync url protocols w :
  createCompatibleWebSocket url protocols w
  = (Normal (settle (createCompatibleWebSocketSync url protocols w).1),
     (createCompatibleWebSocketSync url protocols w).2)
  /\ (forall handle net',
        WebSocket_new url protocols (net w) = (Normal handle, net') ->
        exists w',
          createCompatibleWebSocketSync url protocols w = (Normal handle, w')
          /\ createCompatibleWebSocket url protocols w
             = (Normal (Fulfilled handle), w'))
  /\ (forall e net',
        WebSocket_new url protocols (net w) = (Throw e, net') ->
        exists err w',
          createCompatibleWebSocketSync url protocols w = (Throw err, w')
          /\ createCompatibleWebSocket url protocols w
             = (Normal (Rejected err), w')
          /\ class err = ClassWebSocketCompatibilityError
          /\ instanceof err ClassTransportError = true
          /\ own err !! "name" = Some (PString "WebSocketCompatibilityError")
          /\ own err !! "message"
             = Some (PString ("Failed to create WebSocket: " +:+ ToString e))
          /\ own err !! "cause" = Some (PUnknown e)).
Proof.
  unfold createCompatibleWebSocket, async.
  rewrite createCompatibleWebSocketSync_run.
  destruct (WebSocket_new url protocols (net w)) as [[handle|e] net'];
    (split; [reflexivity|]); split; intros ? ? [= <- <-]; eauto.
  eexists _, _. split; [reflexivity|]. split; [reflexivity|].
  unfold wrapped.
  rewrite WebSocketCompatibilityError_class,
    WebSocketCompatibilityError_instanceof,
    WebSocketCompatibilityError_name,
    WebSocketCompatibilityError_message,
    WebSocketCompatibilityError_cause.
  repeat split.
Qed.

(** C8.  When the constructor accepts [(url, protocols)] and returns a
    handle, [createCompatibleWebSocketSync] returns that handle and throws
    nothing, and the constructor has been called once more than before, on
    [(url, protocols)] as given. *)
Theorem createCompatibleWebSocketSync_delegates url protocols w handle net' :
  WebSocket_new url protocols (net w) = (Normal handle, net') ->
  createCompatibleWebSocketSync url protocols w
  = (Normal handle,
     {| net := net';
        constructions := constructions w ++ [(url, protocols)] |}).
Proof.
  intros H. rewrite createCompatibleWebSocketSync_run, H. reflexivity.
Qed.

(** C9, amended.  An error object made by [new WebSocketCompatibilityError],
    with or without a message and with or without options, has the name
    "WebSocketCompatibilityError" and is an instance of the transport error
    class; its own properties are message and cause, as given, the name, and
    besides them only the stack trace the engine records on every Error
    instance. *)
Theorem WebSocketCompatibilityError_invariant message options :
  let e := WebSocketCompatibilityError message options in
  own e !! "name" = Some (PString "WebSocketCompatibilityError")
  /\ instanceof e ClassTransportError = true
  /\ dom (own e) ⊆ {[ "stack"; "message"; "cause"; "name" ]}
  /\ own e !! "stack" = Some (PString stack_trace)
  /\ own e !! "message" = PString <$> message
  /\ own e !! "cause" = PUnknown <$> (options ≫= cause).
Proof using Type.
  cbv zeta.
  rewrite WebSocketCompatibilityError_instanceof.
  split; [apply WebSocketCompatibilityError_name|].
  split; [reflexivity|].
  split; [apply WebSocketCompatibilityError_keys|].
  split; [apply WebSocketCompatibilityError_stack|].
  split; [apply WebSocketCompatibilityError_message
         |apply WebSocketCompatibilityError_cause].
Qed.

(** ** Further properties of the factory *)

(** X7.  A failed construction is not tried again: when the constructor
    throws, it has been called once, on the arguments as given, and the
    library is left in the state that call produced. *)
Theorem createCompatibleWebSocketSync_failure_effect url protocols w e net' :
  WebSocket_new url protocols (net w) = (Throw e, net') ->
  (createCompatibleWebSocketSync url protocols w).2
  = {| net := net';
       constructions := constructions w ++ [(url, protocols)] |}.
Proof.
  intros H. rewrite createCompatibleWebSocketSync_run, H. reflexivity.
Qed.

(** X8.  When the constructor throws [e], the promise of
    [createCompatibleWebSocket] is rejected with a transport error named
    "WebSocketCompatibilityError" whose message ends with the string form of
    [e] and whose cause is [e]; the constructor has been called once. *)
Theorem createCompatibleWebSocket_rejection url protocols w e net' :
  WebSocket_new url protocols (net w) = (Throw e, net') ->
  exists err,
    createCompatibleWebSocket url protocols w
    = (Normal (Rejected err),
       {| net := net';
          constructions := constructions w ++ [(url, protocols)] |})
    /\ instanceof err ClassTransportError = true
    /\ own err !! "name" = Some (PString "WebSocketCompatibilityError")
    /\ own err !! "message"
       = Some (PString ("Failed to create WebSocket: " +:+ ToString e))
    /\ own err !! "cause" = Some (PUnknown e).
Proof.
  intros H. exists (wrapped e).
  unfold createCompatibleWebSocket, async.
  rewrite createCompatibleWebSocketSync_run, H. unfold wrapped.
  rewrite WebSocketCompatibilityError_instanceof,
    WebSocketCompatibilityError_name,
    WebSocketCompatibilityError_message,
    WebSocketCompatibilityError_cause.
  repeat split.
Qed.

(** X9.  The value that was thrown can be told from the error that wraps
    it: errors made for two thrown values are equal only if the values
    are. *)
Theorem wrapped_error_identifies_cause e1 e2 :
  WebSocketCompatibilityError
    (Some ("Failed to create WebSocket: " +:+ ToString e1))
    (Some {| cause := Some e1 |})
  = WebSocketCompatibilityError
      (Some ("Failed to create WebSocket: " +:+ ToString e2))
      (Some {| cause := Some e2 |}) ->
  e1 = e2.
Proof.
  intros Heq.
  pose proof (WebSocketCompatibilityError_cause
                (Some ("Failed to create WebSocket: " +:+ ToString e1))
                (Some {| cause := Some e1 |})) as H1.
  pose proof (WebSocketCompatibilityError_cause
                (Some ("Failed to create WebSocket: " +:+ ToString e2))
                (Some {| cause := Some e2 |})) as H2.
  rewrite Heq, H2 in H1. cbn in H1. congruence.
Qed.

End Factory.

(** ** Properties of the probe *)

(** *** The built-ins on sample inputs *)

Example split_version : split_on "." "20.11.0" = ["20"; "11"; "0"].
Proof. reflexivity. Qed.

Example split_empty : split_on "." "" = [""].
Proof. reflexivity. Qed.

Example parseInt_major : parseInt "20" 10 = Int 20.
Proof. reflexivity. Qed.

Example parseInt_stops_at_letters : parseInt " -18rc" 10 = Int (-18).
Proof. reflexivity. Qed.

Example parseInt_no_digits : parseInt "v18" 10 = NaN.
Proof. reflexivity. Qed.

Example parseInt_minus_zero : parseInt "-0" 10 = NegZero.
Proof. reflexivity. Qed.

Example parseInt_rounds : parseInt "9007199254740993" 10 = Int 9007199254740992.
Proof. reflexivity. Qed.

Example probe_under_node :
  getWebSocketEnvironmentInfo (host_global (VString "20.11.0"))
  = Normal (info (VBool true) (VNumber (Int 20))).
Proof. reflexivity. Qed.

Example probe_without_process :
  getWebSocketEnvironmentInfo [("document", VObject [])]
  = Normal (info (VBool false) VNull).
Proof. reflexivity. Qed.

Example probe_with_process_shim :
  getWebSocketEnvironmentInfo [("process", VObject [("env", VObject [])])]
  = Normal (info (VBool false) VNull).
Proof. reflexivity. Qed.

Example probe_with_numeric_version :
  getWebSocketEnvironmentInfo (host_global (VNumber (Int 18)))
  = Throw TypeError.
Proof. reflexivity. Qed.

(** *** The leading component *)

Lemma split_on_nonempty sep s : split_on sep s <> [].
Proof.
  destruct s as [|c rest]; simpl; [discriminate|].
  destruct (Ascii.eqb c sep); [discriminate|].
  destruct (split_on sep rest); discriminate.
Qed.

Lemma element0_split_on s : element0 (split_on "." s) = major_component s.
Proof.
  induction s as [|c rest IH]; simpl; [reflexivity|].
  destruct (Ascii.eqb c "."); [reflexivity|].
  pose proof (split_on_nonempty "." rest) as Hne.
  destruct (split_on "." rest); simpl in *; congruence.
Qed.

Lemma getWebSocketEnvironmentInfo_null_process globalThis :
  property globalThis "process" = VNull ->
  getWebSocketEnvironmentInfo globalThis = Throw TypeError.
Proof. unfold getWebSocketEnvironmentInfo. intros ->. reflexivity. Qed.

(** Apart from a [null] process, the probe is [describe] of the version
    reported. *)
Lemma getWebSocketEnvironmentInfo_describe globalThis :
  property globalThis "process" <> VNull ->
  getWebSocketEnvironmentInfo globalThis
  = describe (reported_version (property globalThis "process")).
Proof.
  unfold getWebSocketEnvironmentInfo. intros Hnull.
  destruct (property globalThis "process") as [| |b|n|s|p];
    try reflexivity; [contradiction|].
  cbn. destruct (property p "versions") as [| |b|n|s|v]; try reflexivity.
  cbn. destruct (property v "node") as [| |b|n|s|o]; try reflexivity.
  - destruct b; reflexivity.
  - destruct n as [| | |z]; try reflexivity.
    unfold describe. cbn. destruct (z =? 0); reflexivity.
  - unfold describe. cbn. destruct (String.eqb s ""); cbn; [reflexivity|].
    rewrite element0_split_on. reflexivity.
Qed.

Lemma describe_throws version :
  describe version = Throw TypeError <->
  ToBoolean version = true /\ forall s, version <> VString s.
Proof.
  unfold describe. destruct (ToBoolean version) eqn:Htruthy.
  - destruct version; split;
      solve [ intros _; split; [reflexivity | discriminate]
            | reflexivity
            | discriminate
            | intros [_ H]; exfalso; eapply H; reflexivity ].
  - split; [discriminate | intros [[=] _]].
Qed.

(** *** parseInt on the leading component *)

Lemma decimal_digit_code c d :
  decimal_digit c = Some d -> 48 <= code c <= 57 /\ d = code c - 48.
Proof.
  unfold decimal_digit.
  destruct ((48 <=? code c) && (code c <=? 57)) eqn:E; [|discriminate].
  intros [= <-]. apply andb_true_iff in E as [?%Z.leb_le ?%Z.leb_le]. lia.
Qed.

Lemma digit_value_decimal c : digit_value 10 c = decimal_digit c.
Proof.
  unfold digit_value, decimal_digit.
  destruct ((48 <=? code c) && (code c <=? 57)) eqn:E.
  - apply andb_true_iff in E as [?%Z.leb_le ?%Z.leb_le].
    destruct (code c - 48 <? 10) eqn:E'; [reflexivity|].
    apply Z.ltb_ge in E'. lia.
  - destruct ((97 <=? code c) && (code c <=? 122)) eqn:E1.
    + apply andb_true_iff in E1 as [?%Z.leb_le ?%Z.leb_le].
      destruct (code c - 87 <? 10) eqn:E'; [|reflexivity].
      apply Z.ltb_lt in E'. lia.
    + destruct ((65 <=? code c) && (code c <=? 90)) eqn:E2; [|reflexivity].
      apply andb_true_iff in E2 as [?%Z.leb_le ?%Z.leb_le].
      destruct (code c - 55 <? 10) eqn:E'; [|reflexivity].
      apply Z.ltb_lt in E'. lia.
Qed.

Lemma digit_not_space c d : decimal_digit c = Some d -> is_white_space c = false.
Proof.
  intros [H _]%decimal_digit_code. unfold is_white_space.
  repeat (apply orb_false_iff; split); apply Z.eqb_neq; lia.
Qed.

Lemma digit_not_sign c d :
  decimal_digit c = Some d ->
  Ascii.eqb c "+" = false /\ Ascii.eqb c "-" = false.
Proof.
  intros [H _]%decimal_digit_code.
  split; apply Ascii.eqb_neq; intros ->; unfold code in H; simpl in H; lia.
Qed.

Lemma decimal_prefix_digits s : forall acc,
  fold_left (fun a d => 10 * a + d) (digit_prefix 10 s) acc
  = decimal_prefix acc s.
Proof.
  induction s as [|c rest IH]; simpl; intros acc; [reflexivity|].
  rewrite digit_value_decimal.
  destruct (decimal_digit c) as [d|]; [apply IH | reflexivity].
Qed.

Lemma decimal_prefix_grows s : forall acc,
  0 <= acc -> acc <= decimal_prefix acc s.
Proof.
  induction s as [|c rest IH]; simpl; intros acc Hacc; [lia|].
  destruct (decimal_digit c) as [d|] eqn:Hd; [|lia].
  apply decimal_digit_code in Hd.
  specialize (IH (10 * acc + d)). lia.
Qed.

Lemma leading_integer_nonneg version n :
  leading_integer version = Some n -> 0 <= n.
Proof.
  unfold leading_integer.
  destruct (major_component version) as [|c rest]; [discriminate|].
  destruct (decimal_digit c); [|discriminate].
  intros [= <-]. exact (decimal_prefix_grows (String c rest) 0 (Z.le_refl 0)).
Qed.

(** On a string that starts with a digit, [parseInt] in radix 10 reads the
    digits at its front. *)
Lemma parseInt_leading_digit c rest d :
  decimal_digit c = Some d ->
  parseInt (String c rest) 10 = Number_of (decimal_prefix 0 (String c rest)).
Proof.
  intros Hd.
  pose proof (digit_not_space _ _ Hd) as Hsp.
  pose proof (digit_not_sign _ _ Hd) as [Hplus Hminus].
  unfold parseInt. simpl trim_start. rewrite Hsp.
  unfold strip_sign. rewrite Hplus, Hminus.
  cbn -[digit_prefix math_int decimal_prefix Z.mul Z.add].
  simpl digit_prefix. rewrite digit_value_decimal, Hd.
  unfold math_int, Number_of. simpl fold_left. rewrite decimal_prefix_digits.
  simpl decimal_prefix. rewrite Hd. reflexivity.
Qed.

Lemma parseInt_leading_integer version n :
  leading_integer version = Some n ->
  parseInt (major_component version) 10 = Number_of n.
Proof.
  unfold leading_integer.
  destruct (major_component version) as [|c rest]; [discriminate|].
  destruct (decimal_digit c) as [d|] eqn:Hd; [|discriminate].
  intros [= <-]. apply (parseInt_leading_digit _ _ _ Hd).
Qed.

Lemma Number_of_exact n : 0 <= n < 2 ^ 53 -> Number_of n = Int n.
Proof.
  intros [H0 H53]. unfold Number_of.
  destruct (n =? 0) eqn:E; [apply Z.eqb_eq in E; congruence|].
  unfold number_of_integer, round_to_double.
  assert ((2 ^ 1024 <=? n) = false) as Hfinite.
  { apply Z.leb_gt. apply Z.lt_trans with (2 ^ 53); [assumption|].
    apply Z.pow_lt_mono_r; lia. }
  apply Z.ltb_lt in H53. rewrite H53, Hfinite.
  f_equal. lia.
Qed.

Lemma number_of_integer_not_NaN sign m : number_of_integer sign m <> NaN.
Proof.
  unfold number_of_integer.
  destruct (2 ^ 1024 <=? round_to_double m); discriminate.
Qed.

(** In radix 10 [parseInt] gives NaN exactly on the strings that do not
    start with an integer. *)
Lemma parseInt_NaN_iff component :
  parseInt component 10 = NaN <-> starts_with_integer component = false.
Proof.
  unfold starts_with_integer, parseInt.
  cbn -[digit_prefix math_int strip_sign trim_start number_of_integer].
  destruct (strip_sign (trim_start component)) as [|c rest];
    [split; reflexivity|].
  simpl digit_prefix. rewrite digit_value_decimal.
  destruct (decimal_digit c) as [d|]; [|split; reflexivity].
  split; [|discriminate].
  destruct (math_int 10 _ =? 0).
  - destruct (_ =? -1); discriminate.
  - intros H. destruct (number_of_integer_not_NaN _ _ H).
Qed.

Lemma parseInt_malformed component :
  starts_with_integer component = false -> parseInt component 10 = NaN.
Proof. apply parseInt_NaN_iff. Qed.

(** *** The record returned *)

Lemma getWebSocketEnvironmentInfo_returns globalThis r :
  getWebSocketEnvironmentInfo globalThis = Normal r ->
  exists b major, r = info (VBool b) major.
Proof.
  unfold getWebSocketEnvironmentInfo.
  destruct (logical_and _ _) as [isNode|e]; [|discriminate]. cbn.
  match goal with |- context [mbind _ ?c] => destruct c as [major|e] end;
    [|discriminate].
  cbn. intros [= <-]. eauto.
Qed.

Lemma getWebSocketEnvironmentInfo_no_version globalThis :
  getWebSocketEnvironmentInfo globalThis = Normal (info (VBool false) VNull)
  <-> reports_no_version globalThis.
Proof.
  unfold reports_no_version. split.
  - intros Hinfo. assert (property globalThis "process" <> VNull) as Hnull.
    { intros Hp. apply getWebSocketEnvironmentInfo_null_process in Hp.
      congruence. }
    split; [exact Hnull|].
    rewrite getWebSocketEnvironmentInfo_describe in Hinfo by exact Hnull.
    unfold describe in Hinfo.
    destruct (ToBoolean (reported_version _)); [|reflexivity].
    destruct (reported_version _); discriminate.
  - intros [Hnull Hfalsy].
    rewrite getWebSocketEnvironmentInfo_describe by exact Hnull.
    unfold describe. rewrite Hfalsy. reflexivity.
Qed.

Lemma null_or_not (v : Value) : {v = VNull} + {v <> VNull}.
Proof. destruct v; (left; reflexivity) || (right; discriminate). Qed.

(** The probe throws exactly where it is not safe. *)
Lemma getWebSocketEnvironmentInfo_throws_iff globalThis :
  getWebSocketEnvironmentInfo globalThis = Throw TypeError <->
  ~ probe_safe globalThis.
Proof.
  unfold probe_safe. split.
  - intros Hthrow [Hnull Hsafe].
    rewrite getWebSocketEnvironmentInfo_describe in Hthrow by exact Hnull.
    apply describe_throws in Hthrow as [Htruthy Hother].
    destruct (Hsafe Htruthy) as [s Hs]. exact (Hother s Hs).
  - intros Hunsafe.
    destruct (null_or_not (property globalThis "process")) as [Hp|Hp];
      [exact (getWebSocketEnvironmentInfo_null_process _ Hp)|].
    rewrite getWebSocketEnvironmentInfo_describe by exact Hp.
    apply describe_throws.
    destruct (ToBoolean (reported_version _)) eqn:Htruthy.
    + split; [reflexivity|]. intros s Hs. apply Hunsafe.
      split; [exact Hp | eauto].
    + exfalso. apply Hunsafe. split; [exact Hp | discriminate].
Qed.

(** C3, as stated, fails on both of its branches.  A process global can
    report a version string and yet give no integer ("v18.0.0" gives NaN),
    give isNode = false (the empty string) or a rounded integer (beyond
    2^53); and a global object that reports no version string does not
    always get isNode = false and null: with [null] as process, or a number
    at [versions.node], the probe throws. *)
Lemma host_detection_fails_off_node :
  getWebSocketEnvironmentInfo (host_global (VString "v18.0.0"))
  = Normal (info (VBool true) (VNumber NaN))
  /\ getWebSocketEnvironmentInfo (host_global (VString ""))
     = Normal (info (VBool false) VNull)
  /\ leading_integer "9007199254740993.0.0" = Some 9007199254740993
  /\ getWebSocketEnvironmentInfo (host_global (VString "9007199254740993.0.0"))
     = Normal (info (VBool true) (VNumber (Int 9007199254740992)))
  /\ getWebSocketEnvironmentInfo [("process", VNull)] = Throw TypeError
  /\ getWebSocketEnvironmentInfo (host_global (VNumber (Int 18)))
     = Throw TypeError
  /\ ~ (forall globalThis,
          (forall s,
              reported_version (property globalThis "process") <> VString s) ->
          getWebSocketEnvironmentInfo globalThis
          = Normal (info (VBool false) VNull)).
Proof.
  repeat (split; [reflexivity|]).
  intros H. specialize (H [("process", VNull)]).
  discriminate H. intros s. discriminate.
Qed.

(** C3, amended.  When the process global is an object whose [versions.node]
    is a version string with a leading base-10 integer [n], the probe
    returns isNode = true and nodeMajorVersion = the Number for [n], which
    is [n] itself below 2^53 and the nearest double from there on.  When the
    process global is not [null] and reports no version (there is no process
    global, or what it has at [versions.node] is missing or falsy, the empty
    string included) the probe returns isNode = false and
    nodeMajorVersion = null. *)
Theorem getWebSocketEnvironmentInfo_host_detection globalThis :
  (forall p v s n,
      property globalThis "process" = VObject p ->
      property p "versions" = VObject v ->
      property v "node" = VString s ->
      leading_integer s = Some n ->
      getWebSocketEnvironmentInfo globalThis
      = Normal (info (VBool true) (VNumber (Number_of n)))
      /\ (n < 2 ^ 53 -> Number_of n = Int n))
  /\ (reports_no_version globalThis ->
      getWebSocketEnvironmentInfo globalThis
      = Normal (info (VBool false) VNull)).
Proof.
  split; [|apply getWebSocketEnvironmentInfo_no_version].
  intros p v s n Hp Hv Hs Hn. split.
  - rewrite getWebSocketEnvironmentInfo_describe by (rewrite Hp; discriminate).
    rewrite Hp. unfold reported_version. rewrite Hv, Hs.
    unfold describe, ToBoolean.
    destruct (String.eqb_spec s "") as [->|_]; [discriminate|].
    cbn [negb]. rewrite (parseInt_leading_integer _ _ Hn). reflexivity.
  - intros Hlt. apply Number_of_exact. split; [|assumption].
    apply (leading_integer_nonneg _ _ Hn).
Qed.

Lemma getWebSocketEnvironmentInfo_host_detection_witness :
  getWebSocketEnvironmentInfo (host_global (VString "20.11.0"))
  = Normal (info (VBool true) (VNumber (Number_of 20)))
  /\ Number_of 20 = Int 20
  /\ getWebSocketEnvironmentInfo [] = Normal (info (VBool false) VNull).
Proof.
  pose proof (getWebSocketEnvironmentInfo_host_detection
                (host_global (VString "20.11.0"))) as [Hhost _].
  pose proof (getWebSocketEnvironmentInfo_host_detection []) as [_ Hnone].
  destruct (Hhost [("versions", VObject [("node", VString "20.11.0")])]
              [("node", VString "20.11.0")] "20.11.0" 20
              eq_refl eq_refl eq_refl eq_refl) as [Hinfo Hexact].
  split; [exact Hinfo|]. split; [apply Hexact; reflexivity|].
  apply Hnone. split; [discriminate | reflexivity].
Defined.

(** C4, as stated, fails: with the version string "abc.1", whose leading
    component "abc" is not numeric, nodeMajorVersion is NaN and not null. *)
Lemma malformed_version_is_not_null :
  leading_integer "abc.1" = None
  /\ starts_with_integer (major_component "abc.1") = false
  /\ getWebSocketEnvironmentInfo (host_global (VString "abc.1"))
     = Normal (info (VBool true) (VNumber NaN))
  /\ ~ (exists r, getWebSocketEnvironmentInfo (host_global (VString "abc.1"))
                  = Normal r
                  /\ EnvironmentInfo.nodeMajorVersion r = VNull).
Proof.
  repeat split; try reflexivity.
  intros (r & Hr & Hnull). vm_compute in Hr. injection Hr as <-. discriminate.
Qed.

(** C4, amended.  When the process global reports a non-empty version string
    whose leading component does not start, after white space and one sign,
    with a decimal digit, the probe raises nothing and returns isNode = true
    and nodeMajorVersion = NaN. *)
Theorem getWebSocketEnvironmentInfo_malformed_version globalThis p v s :
  property globalThis "process" = VObject p ->
  property p "versions" = VObject v ->
  property v "node" = VString s ->
  s <> "" ->
  starts_with_integer (major_component s) = false ->
  getWebSocketEnvironmentInfo globalThis
  = Normal (info (VBool true) (VNumber NaN)).
Proof.
  intros Hp Hv Hs Hne Hmal.
  rewrite getWebSocketEnvironmentInfo_describe by (rewrite Hp; discriminate).
  rewrite Hp. unfold reported_version. rewrite Hv, Hs.
  unfold describe, ToBoolean.
  destruct (String.eqb_spec s ""); [contradiction|].
  cbn [negb]. rewrite (parseInt_malformed _ Hmal). reflexivity.
Qed.

Lemma getWebSocketEnvironmentInfo_malformed_version_witness :
  getWebSocketEnvironmentInfo (host_global (VString "v18.0.0"))
  = Normal (info (VBool true) (VNumber NaN)).
Proof.
  apply (getWebSocketEnvironmentInfo_malformed_version
           (host_global (VString "v18.0.0"))
           [("versions", VObject [("node", VString "v18.0.0")])]
           [("node", VString "v18.0.0")] "v18.0.0");
    try reflexivity.
  discriminate.
Defined.

(** C5, as stated, fails: with [null] as the process global the probe reads
    [versions] through [null] and throws a TypeError. *)
Lemma getWebSocketEnvironmentInfo_throws_on_null_process :
  getWebSocketEnvironmentInfo [("process", VNull)] = Throw TypeError
  /\ ~ (forall globalThis,
          exists r, getWebSocketEnvironmentInfo globalThis = Normal r).
Proof.
  split; [reflexivity|].
  intros H. destruct (H [("process", VNull)]) as [r Hr]. discriminate.
Qed.

(** C5, amended.  On every global object whose process is not [null] and
    reports a version that is falsy or a string, the probe throws nothing
    and returns a record, which has either isNode = false and
    nodeMajorVersion = null or isNode = true and a number as
    nodeMajorVersion; without a process global it is the former. *)
Theorem getWebSocketEnvironmentInfo_total_when_safe globalThis :
  probe_safe globalThis ->
  (exists r,
      getWebSocketEnvironmentInfo globalThis = Normal r
      /\ (r = info (VBool false) VNull
          \/ exists n, r = info (VBool true) (VNumber n)))
  /\ (property globalThis "process" = VUndefined ->
      getWebSocketEnvironmentInfo globalThis
      = Normal (info (VBool false) VNull)).
Proof.
  intros [Hnull Hsafe]. split.
  - rewrite getWebSocketEnvironmentInfo_describe by exact Hnull.
    unfold describe.
    destruct (ToBoolean (reported_version _)) eqn:Htruthy; [|eauto].
    destruct (Hsafe eq_refl) as [s ->]. eauto.
  - intros Hp. apply getWebSocketEnvironmentInfo_no_version.
    unfold reports_no_version. rewrite Hp. split; [discriminate | reflexivity].
Qed.

Lemma getWebSocketEnvironmentInfo_total_when_safe_witness :
  (exists r,
      getWebSocketEnvironmentInfo (host_global (VString "20.11.0")) = Normal r
      /\ (r = info (VBool false) VNull
          \/ exists n, r = info (VBool true) (VNumber n)))
  /\ getWebSocketEnvironmentInfo [] = Normal (info (VBool false) VNull).
Proof.
  destruct (getWebSocketEnvironmentInfo_total_when_safe
              (host_global (VString "20.11.0"))) as [Hrecord _].
  { split; [discriminate|]. intros _. exists "20.11.0". reflexivity. }
  destruct (getWebSocketEnvironmentInfo_total_when_safe []) as [_ Habsent].
  { split; [discriminate|]. cbn. discriminate. }
  split; [exact Hrecord | apply Habsent; reflexivity].
Defined.

(** C6.  Every record the probe returns has hasReliableNativeWebSocket = true
    and requiresWsPackage = false. *)
Theorem getWebSocketEnvironmentInfo_constants globalThis r :
  getWebSocketEnvironmentInfo globalThis = Normal r ->
  EnvironmentInfo.hasReliableNativeWebSocket r = VBool true
  /\ EnvironmentInfo.requiresWsPackage r = VBool false.
Proof.
  intros (b & major & ->)%getWebSocketEnvironmentInfo_returns.
  split; reflexivity.
Qed.

Lemma getWebSocketEnvironmentInfo_constants_witness :
  EnvironmentInfo.hasReliableNativeWebSocket (info (VBool true) (VNumber (Int 20)))
  = VBool true
  /\ EnvironmentInfo.requiresWsPackage (info (VBool true) (VNumber (Int 20)))
     = VBool false.
Proof.
  apply (getWebSocketEnvironmentInfo_constants
           (host_global (VString "20.11.0"))).
  reflexivity.
Defined.

(** C7.  [requiresWsPackage()] returns false in every world and leaves the
    world as it was. *)
Theorem requiresWsPackage_constant (W : Type) (world : W) :
  requiresWsPackage world = (false, world).
Proof. reflexivity. Qed.

(** C10.  The probe returns isNode = false and nodeMajorVersion = null when
    the process global is absent, and also when it is an object whose
    [versions] is undefined, or whose [versions] is an object of which [node]
    is absent, the empty string or any other falsy value; and the isNode it
    returns is always a boolean, never the version string probed. *)
Theorem getWebSocketEnvironmentInfo_falsy_probe globalThis :
  (property globalThis "process" = VUndefined ->
   getWebSocketEnvironmentInfo globalThis = Normal (info (VBool false) VNull))
  /\ (forall p,
        property globalThis "process" = VObject p ->
        property p "versions" = VUndefined ->
        getWebSocketEnvironmentInfo globalThis
        = Normal (info (VBool false) VNull))
  /\ (forall p v,
        property globalThis "process" = VObject p ->
        property p "versions" = VObject v ->
        ToBoolean (property v "node") = false ->
        getWebSocketEnvironmentInfo globalThis
        = Normal (info (VBool false) VNull))
  /\ (forall r,
        getWebSocketEnvironmentInfo globalThis = Normal r ->
        exists b, EnvironmentInfo.isNode r = VBool b).
Proof.
  repeat split.
  - intros Hp. apply getWebSocketEnvironmentInfo_no_version.
    unfold reports_no_version. rewrite Hp. split; [discriminate | reflexivity].
  - intros p Hp Hv. apply getWebSocketEnvironmentInfo_no_version.
    unfold reports_no_version, reported_version. rewrite Hp, Hv.
    split; [discriminate | reflexivity].
  - intros p v Hp Hv Hnode. apply getWebSocketEnvironmentInfo_no_version.
    unfold reports_no_version, reported_version. rewrite Hp, Hv.
    split; [discriminate | exact Hnode].
  - intros r (b & major & ->)%getWebSocketEnvironmentInfo_returns. eauto.
Qed.

Lemma getWebSocketEnvironmentInfo_falsy_probe_witness :
  getWebSocketEnvironmentInfo [] = Normal (info (VBool false) VNull)
  /\ getWebSocketEnvironmentInfo [("process", VObject [("env", VObject [])])]
     = Normal (info (VBool false) VNull)
  /\ getWebSocketEnvironmentInfo (host_global (VString ""))
     = Normal (info (VBool false) VNull)
  /\ exists b,
      EnvironmentInfo.isNode (info (VBool true) (VNumber (Int 20))) = VBool b.
Proof.
  destruct (getWebSocketEnvironmentInfo_falsy_probe [])
    as (Habsent & _ & _ & _).
  destruct (getWebSocketEnvironmentInfo_falsy_probe
              [("process", VObject [("env", VObject [])])])
    as (_ & Hversions & _ & _).
  destruct (getWebSocketEnvironmentInfo_falsy_probe
              (host_global (VString "")))
    as (_ & _ & Hnode & _).
  destruct (getWebSocketEnvironmentInfo_falsy_probe
              (host_global (VString "20.11.0")))
    as (_ & _ & _ & Hbool).
  split; [apply Habsent; reflexivity|].
  split; [apply (Hversions [("env", VObject [])]); reflexivity|].
  split; [apply (Hnode [("versions", VObject [("node", VString "")])]
                   [("node", VString "")]); reflexivity|].
  apply Hbool. reflexivity.
Defined.

(** ** Further properties of the probe *)

Lemma reported_version_of_null : reported_version VNull = VUndefined.
Proof. reflexivity. Qed.

Lemma reports_string_not_null process s :
  reported_version process = VString s -> process <> VNull.
Proof. intros H ->. discriminate. Qed.

(** On a global object that reports the non-empty string [s], the probe
    returns isNode = true and what [parseInt] reads off the leading
    component of [s]. *)
Lemma getWebSocketEnvironmentInfo_of_string globalThis s :
  reported_version (property globalThis "process") = VString s ->
  s <> "" ->
  getWebSocketEnvironmentInfo globalThis
  = Normal (info (VBool true) (VNumber (parseInt (major_component s) 10))).
Proof.
  intros Hs Hne.
  rewrite getWebSocketEnvironmentInfo_describe
    by exact (reports_string_not_null _ _ Hs).
  rewrite Hs. unfold describe, ToBoolean.
  destruct (String.eqb_spec s ""); [contradiction | reflexivity].
Qed.

(** X1.  The probe throws a TypeError when the process global is [null], and
    when what it reports at [versions.node] is truthy and not a string: the
    boolean true, a number other than zero and NaN, or an object whose
    properties are data. *)
Theorem getWebSocketEnvironmentInfo_throws_when globalThis :
  property globalThis "process" = VNull
  \/ (ToBoolean (reported_version (property globalThis "process")) = true
      /\ forall s,
          reported_version (property globalThis "process") <> VString s) ->
  getWebSocketEnvironmentInfo globalThis = Throw TypeError.
Proof.
  intros [Hp | [Htruthy Hother]].
  - apply getWebSocketEnvironmentInfo_null_process, Hp.
  - assert (property globalThis "process" <> VNull) as Hp.
    { intros Hp. rewrite Hp, reported_version_of_null in Htruthy.
      discriminate. }
    rewrite getWebSocketEnvironmentInfo_describe by exact Hp.
    apply describe_throws. split; assumption.
Qed.

Lemma getWebSocketEnvironmentInfo_throws_when_witness :
  getWebSocketEnvironmentInfo (host_global (VNumber (Int 18)))
  = Throw TypeError.
Proof.
  apply (getWebSocketEnvironmentInfo_throws_when
           (host_global (VNumber (Int 18)))).
  right. split; [reflexivity | discriminate].
Defined.

(** X3.  In every record the probe returns, nodeMajorVersion is null exactly
    when isNode is false. *)
Theorem getWebSocketEnvironmentInfo_null_iff_not_node globalThis r :
  getWebSocketEnvironmentInfo globalThis = Normal r ->
  EnvironmentInfo.nodeMajorVersion r = VNull
  <-> EnvironmentInfo.isNode r = VBool false.
Proof.
  intros Hr.
  assert (property globalThis "process" <> VNull) as Hp.
  { intros Hp. apply getWebSocketEnvironmentInfo_null_process in Hp.
    congruence. }
  rewrite getWebSocketEnvironmentInfo_describe in Hr by exact Hp.
  unfold describe in Hr.
  destruct (ToBoolean (reported_version _)).
  - destruct (reported_version _); try discriminate.
    injection Hr as <-. split; discriminate.
  - injection Hr as <-. split; reflexivity.
Qed.

Lemma getWebSocketEnvironmentInfo_null_iff_not_node_witness :
  EnvironmentInfo.nodeMajorVersion (info (VBool true) (VNumber (Int 20)))
  = VNull
  <-> EnvironmentInfo.isNode (info (VBool true) (VNumber (Int 20)))
      = VBool false.
Proof.
  apply (getWebSocketEnvironmentInfo_null_iff_not_node
           (host_global (VString "20.11.0"))).
  reflexivity.
Defined.

(** X4.  Only the leading component of the version matters: two global
    objects that report non-empty version strings with the same leading
    component get the same record. *)
Theorem getWebSocketEnvironmentInfo_major_only global1 global2 s1 s2 :
  reported_version (property global1 "process") = VString s1 ->
  reported_version (property global2 "process") = VString s2 ->
  s1 <> "" ->
  s2 <> "" ->
  major_component s1 = major_component s2 ->
  getWebSocketEnvironmentInfo global1 = getWebSocketEnvironmentInfo global2.
Proof.
  intros H1 H2 Hne1 Hne2 Hmajor.
  rewrite (getWebSocketEnvironmentInfo_of_string _ _ H1 Hne1),
    (getWebSocketEnvironmentInfo_of_string _ _ H2 Hne2), Hmajor.
  reflexivity.
Qed.

Lemma getWebSocketEnvironmentInfo_major_only_witness :
  getWebSocketEnvironmentInfo (host_global (VString "20.11.0"))
  = getWebSocketEnvironmentInfo (host_global (VString "20.9.1-nightly")).
Proof.
  apply (getWebSocketEnvironmentInfo_major_only
           (host_global (VString "20.11.0"))
           (host_global (VString "20.9.1-nightly"))
           "20.11.0" "20.9.1-nightly");
    try reflexivity; discriminate.
Defined.

(** X5.  For a non-empty version string, nodeMajorVersion is NaN exactly
    when the leading component does not start, after white space and one
    sign, with a decimal digit. *)
Theorem getWebSocketEnvironmentInfo_NaN_iff globalThis s :
  reported_version (property globalThis "process") = VString s ->
  s <> "" ->
  getWebSocketEnvironmentInfo globalThis
  = Normal (info (VBool true) (VNumber NaN))
  <-> starts_with_integer (major_component s) = false.
Proof.
  intros Hs Hne.
  rewrite (getWebSocketEnvironmentInfo_of_string _ _ Hs Hne).
  rewrite <- parseInt_NaN_iff. split.
  - intros [= H]. exact H.
  - intros ->. reflexivity.
Qed.

Lemma getWebSocketEnvironmentInfo_NaN_iff_witness :
  getWebSocketEnvironmentInfo (host_global (VString "20.11.0"))
  = Normal (info (VBool true) (VNumber NaN))
  <-> starts_with_integer (major_component "20.11.0") = false.
Proof.
  apply (getWebSocketEnvironmentInfo_NaN_iff
           (host_global (VString "20.11.0")) "20.11.0");
    [reflexivity | discriminate].
Defined.

(** After a minus sign [parseInt] reads the digits and negates. *)
Lemma parseInt_minus c rest d :
  decimal_digit c = Some d ->
  parseInt (String "-" (String c rest)) 10
  = if decimal_prefix 0 (String c rest) =? 0 then NegZero
    else number_of_integer (-1) (decimal_prefix 0 (String c rest)).
Proof.
  intros Hd. unfold parseInt.
  cbn -[digit_prefix math_int decimal_prefix Z.mul Z.add number_of_integer].
  simpl digit_prefix. rewrite digit_value_decimal, Hd.
  unfold math_int. simpl fold_left. rewrite decimal_prefix_digits.
  simpl decimal_prefix. rewrite Hd. reflexivity.
Qed.

Lemma number_of_integer_minus n :
  0 < n < 2 ^ 53 -> number_of_integer (-1) n = Int (- n).
Proof.
  intros [H0 H53]. unfold number_of_integer, round_to_double.
  assert ((2 ^ 1024 <=? n) = false) as Hfinite.
  { apply Z.leb_gt. apply Z.lt_trans with (2 ^ 53); [assumption|].
    apply Z.pow_lt_mono_r; lia. }
  apply Z.ltb_lt in H53. rewrite H53, Hfinite.
  f_equal; lia.
Qed.

(** X6.  A minus sign in front of the version is kept: with a leading
    integer [n] after it, nodeMajorVersion is the negative number [-n]
    (below 2^53), and negative zero when [n] is 0; isNode is true. *)
Theorem getWebSocketEnvironmentInfo_negative_version globalThis version n :
  reported_version (property globalThis "process")
  = VString (String "-" version) ->
  leading_integer version = Some n ->
  (n = 0 ->
   getWebSocketEnvironmentInfo globalThis
   = Normal (info (VBool true) (VNumber NegZero)))
  /\ (0 < n < 2 ^ 53 ->
      getWebSocketEnvironmentInfo globalThis
      = Normal (info (VBool true) (VNumber (Int (- n))))).
Proof.
  intros Hs Hn.
  rewrite (getWebSocketEnvironmentInfo_of_string _ _ Hs) by discriminate.
  unfold leading_integer in Hn.
  change (major_component (String "-" version))
    with (String "-" (major_component version)).
  destruct (major_component version) as [|c rest]; [discriminate|].
  destruct (decimal_digit c) as [d|] eqn:Hd; [|discriminate].
  injection Hn as Hn. change (decimal_prefix 0 (String c rest) = n) in Hn.
  rewrite (parseInt_minus _ _ _ Hd), Hn.
  split.
  - intros ->. reflexivity.
  - intros Hrange. destruct (Z.eqb_spec n 0) as [->|_]; [lia|].
    rewrite (number_of_integer_minus _ Hrange). reflexivity.
Qed.

Lemma getWebSocketEnvironmentInfo_negative_version_witness :
  getWebSocketEnvironmentInfo (host_global (VString "-18.2.0"))
  = Normal (info (VBool true) (VNumber (Int (-18)))).
Proof.
  destruct (getWebSocketEnvironmentInfo_negative_version
              (host_global (VString "-18.2.0")) "18.2.0" 18
              eq_refl eq_refl) as [_ Hnegative].
  apply Hnegative. lia.
Defined.

(** ** The factory on the sample library *)

Local Abbreviation sample_sync :=
  (createCompatibleWebSocketSync nat string nat id sample_WebSocket_new
     "at createCompatibleWebSocketSync" (Some "TransportError")).
Local Abbreviation sample_async :=
  (createCompatibleWebSocket nat string nat id sample_WebSocket_new
     "at createCompatibleWebSocketSync" (Some "TransportError")).
Local Abbreviation fresh := {| net := 0%nat; constructions := [] |}.

Lemma createCompatibleWebSocketSync_wraps_failure_witness :
  exists err w',
    sample_sync (UrlString "not-a-valid-url") None fresh = (Throw err, w')
    /\ class string err = ClassWebSocketCompatibilityError
    /\ own string err !! "name"
       = Some (PString string "WebSocketCompatibilityError")
    /\ own string err !! "message"
       = Some (PString string
                 "Failed to create WebSocket: SyntaxError: Invalid URL")
    /\ own string err !! "cause"
       = Some (PUnknown string "SyntaxError: Invalid URL").
Proof.
  destruct (createCompatibleWebSocketSync_wraps_failure
              nat string nat id sample_WebSocket_new "at createCompatibleWebSocketSync" (Some "TransportError")
              (UrlString "not-a-valid-url") None fresh) as [Hwrap _].
  apply (Hwrap "SyntaxError: Invalid URL" 0%nat). reflexivity.
Defined.

Lemma createCompatibleWebSocket_as_sync_witness :
  (exists w',
      sample_sync (UrlString "ws://example.test:80/socket") None fresh
      = (Normal 0%nat, w')
      /\ sample_async (UrlString "ws://example.test:80/socket") None fresh
         = (Normal (Fulfilled 0%nat), w'))
  /\ (exists err w',
        sample_sync (UrlString "not-a-valid-url") None fresh = (Throw err, w')
        /\ sample_async (UrlString "not-a-valid-url") None fresh
           = (Normal (Rejected err), w')
        /\ class string err = ClassWebSocketCompatibilityError
        /\ instanceof string err ClassTransportError = true
        /\ own string err !! "name"
           = Some (PString string "WebSocketCompatibilityError")
        /\ own string err !! "message"
           = Some (PString string
                     "Failed to create WebSocket: SyntaxError: Invalid URL")
        /\ own string err !! "cause"
           = Some (PUnknown string "SyntaxError: Invalid URL")).
Proof.
  split.
  - destruct (createCompatibleWebSocket_as_sync
                nat string nat id sample_WebSocket_new "at createCompatibleWebSocketSync" (Some "TransportError")
                (UrlString "ws://example.test:80/socket") None fresh)
      as (_ & Hok & _).
    apply (Hok 0%nat 1%nat). reflexivity.
  - destruct (createCompatibleWebSocket_as_sync
                nat string nat id sample_WebSocket_new "at createCompatibleWebSocketSync" (Some "TransportError")
                (UrlString "not-a-valid-url") None fresh)
      as (_ & _ & Hfail).
    apply (Hfail "SyntaxError: Invalid URL" 0%nat). reflexivity.
Defined.

Lemma createCompatibleWebSocketSync_delegates_witness :
  sample_sync (UrlString "ws://example.test:80/socket")
    (Some (ProtocolList ["v1"; "v2"])) fresh
  = (Normal 0%nat,
     {| net := 1%nat;
        constructions := [(UrlString "ws://example.test:80/socket",
                           Some (ProtocolList ["v1"; "v2"]))] |}).
Proof.
  apply (createCompatibleWebSocketSync_delegates
           nat string nat id sample_WebSocket_new "at createCompatibleWebSocketSync" (Some "TransportError")
           (UrlString "ws://example.test:80/socket")
           (Some (ProtocolList ["v1"; "v2"])) fresh 0%nat 1%nat).
  reflexivity.
Defined.

Lemma createCompatibleWebSocketSync_failure_effect_witness :
  (sample_sync (UrlString "not-a-valid-url") (Some (Protocol "v1")) fresh).2
  = {| net := 0%nat;
       constructions := [(UrlString "not-a-valid-url",
                          Some (Protocol "v1"))] |}.
Proof.
  apply (createCompatibleWebSocketSync_failure_effect
           nat string nat id sample_WebSocket_new "at createCompatibleWebSocketSync" (Some "TransportError")
           (UrlString "not-a-valid-url") (Some (Protocol "v1")) fresh
           "SyntaxError: Invalid URL" 0%nat).
  reflexivity.
Defined.

Lemma createCompatibleWebSocket_rejection_witness :
  exists err,
    sample_async (UrlObject "http://example.test/") None fresh
    = (Normal (Rejected err),
       {| net := 0%nat;
          constructions := [(UrlObject "http://example.test/", None)] |})
    /\ instanceof string err ClassTransportError = true
    /\ own string err !! "name"
       = Some (PString string "WebSocketCompatibilityError")
    /\ own string err !! "message"
       = Some (PString string
                 "Failed to create WebSocket: SyntaxError: Invalid URL")
    /\ own string err !! "cause"
       = Some (PUnknown string "SyntaxError: Invalid URL").
Proof.
  apply (createCompatibleWebSocket_rejection
           nat string nat id sample_WebSocket_new "at createCompatibleWebSocketSync" (Some "TransportError")
           (UrlObject "http://example.test/") None fresh
           "SyntaxError: Invalid URL" 0%nat).
  reflexivity.
Defined.

Lemma wrapped_error_identifies_cause_witness :
  "SyntaxError: Invalid URL" = "SyntaxError: Invalid URL".
Proof.
  apply (wrapped_error_identifies_cause string id
           "at createCompatibleWebSocketSync" (Some "TransportError")).
  reflexivity.
Defined.

(** C9, as stated, fails: an instance has the own property [stack], the
    trace recorded by the engine, which is none of message, cause and
    name. *)
Lemma WebSocketCompatibilityError_has_own_stack :
  own string
    (WebSocketCompatibilityError string "at new WebSocketCompatibilityError"
       (Some "TransportError") None None) !! "stack"
  = Some (PString string "at new WebSocketCompatibilityError")
  /\ ~ (dom (own string
               (WebSocketCompatibilityError string
                  "at new WebSocketCompatibilityError"
                  (Some "TransportError") None None))
        ⊆ {[ "message"; "cause"; "name" ]}).
Proof.
  pose proof (WebSocketCompatibilityError_stack string
                "at new WebSocketCompatibilityError"
                (Some "TransportError") None None) as Hstack.
  split; [exact Hstack|].
  intros Hkeys.
  assert ("stack" ∈ dom (own string
                           (WebSocketCompatibilityError string
                              "at new WebSocketCompatibilityError"
                              (Some "TransportError") None None))) as Hin.
  { apply elem_of_dom. rewrite Hstack. eauto. }
  apply Hkeys in Hin. set_unfold.
  destruct Hin as [[Hin | Hin] | Hin]; discriminate.
Qed.
